(** * SampleApp (app/src/main.py): a vehicle-signal relay over the Velocitas SDK

    The application subscribes to four vehicle signals, logs every change,
    republishes the values as JSON on fixed MQTT topics and answers four
    request topics with the current value of the bound signal.

    The embedding follows the source function by function.  Calls into the
    SDK (the broker's [get] and [subscribe], the transport's [publish_event])
    and into Python's [logging] are effects: every handler is a computation
    in a small monad that records the calls it issues, in order, and that
    stops at the first exception, as a Python coroutine without [try] does. *)

From Stdlib Require Import ZArith List String Ascii Bool Lia.
From Stdlib Require Import DecimalString.
Import ListNotations.
Open Scope string_scope.

(** ** Python values and their text forms *)

Module Py.

(** A Python [float], held the way CPython prints it: [repr] is computed
    from the sign, the shortest digit string that reads back to the same
    float and the position of the decimal point.  [Finite s m p] stands
    for (-1)^s * 0.d1...dn * 10^p where d1...dn are the decimal digits
    of [m]; 42.5 is [Finite false 425 2] and 0.0 is [Finite false 0 1]. *)
Inductive float : Type :=
| Finite (neg : bool) (digits : N) (decpt : Z)
| Inf (neg : bool)
| NaN.

Definition digits_of (m : N) : string :=
  NilZero.string_of_uint (N.to_uint m).

Fixpoint zeros (n : nat) : string :=
  match n with
  | O => ""
  | S k => String "0" (zeros k)
  end.

Fixpoint take (n : nat) (s : string) : string :=
  match n, s with
  | S k, String c r => String c (take k r)
  | _, _ => ""
  end.

Fixpoint drop (n : nat) (s : string) : string :=
  match n, s with
  | S k, String _ r => drop k r
  | _, _ => s
  end.

(** The exponent of the scientific form, as C's ["%+.02d"] prints it. *)
Definition exponent_text (e : Z) : string :=
  let a := digits_of (Z.to_N (Z.abs e)) in
  (if e <? 0 then "-" else "+")%Z
    ++ (if Nat.ltb (String.length a) 2 then "0" else "") ++ a.

(** [repr(x)] for a finite float: fixed notation while the decimal point
    lies in (-4, 16], scientific notation outside; an integral value
    keeps a trailing [.0]. *)
Definition finite_text (m : N) (decpt : Z) : string :=
  let ds := digits_of m in
  let n := Z.of_nat (String.length ds) in
  if ((decpt <=? -4) || (16 <? decpt))%Z then
    take 1 ds
      ++ (if Nat.ltb 1 (String.length ds) then "." ++ drop 1 ds else "")
      ++ "e" ++ exponent_text (decpt - 1)
  else if (decpt <=? 0)%Z then
    "0." ++ zeros (Z.to_nat (- decpt)) ++ ds
  else if (decpt <? n)%Z then
    take (Z.to_nat decpt) ds ++ "." ++ drop (Z.to_nat decpt) ds
  else
    ds ++ zeros (Z.to_nat (decpt - n)) ++ ".0".

Definition sign_text (neg : bool) : string := if neg then "-" else "".

(** [str(x)], which is also what ["%s" % x] and [f"{x}"] insert. *)
Definition str_float (x : float) : string :=
  match x with
  | Finite s m p => sign_text s ++ finite_text m p
  | Inf s => sign_text s ++ "inf"
  | NaN => "nan"
  end.

(** What [fmt % args] comes to.  [FormatError] is Python's [TypeError]
    (too few or too many arguments) or [ValueError] (a format that ends in
    a lone percent sign).  [Unrendered] marks a format with a conversion
    other than [%s] and [%%]: Python may well format it, this model does
    not say how. *)
Inductive formatted : Type :=
| Text (s : string)
| FormatError
| Unrendered.

Definition map_text (f : string -> string) (r : formatted) : formatted :=
  match r with
  | Text s => Text (f s)
  | FormatError => FormatError
  | Unrendered => Unrendered
  end.

(** [fmt % args], read from left to right as Python does, for the
    conversions [%s], the only one the application uses, and [%%].  The
    arguments arrive already converted by [str]. *)
Fixpoint percent (fmt : string) (args : list string) : formatted :=
  match fmt with
  | "" => match args with [] => Text "" | _ :: _ => FormatError end
  | String "%" (String "s" rest) =>
      match args with
      | [] => FormatError
      | a :: more => map_text (append a) (percent rest more)
      end
  | String "%" (String "%" rest) => map_text (String "%") (percent rest args)
  | String "%" "" => FormatError
  | String "%" _ => Unrendered
  | String c rest => map_text (String c) (percent rest args)
  end.

End Py.

(** ** [json.dumps] with its default arguments *)

Module Json.

(** The Python objects the application serializes: [dict] with string
    keys (insertion-ordered), [int], [float] and [str]. *)
#[warnings="-register-all"]
Inductive value : Type :=
| Int (n : Z)
| Float (x : Py.float)
| Str (s : string)
| Dict (items : list (string * value)).

Definition hex_digit (n : N) : ascii :=
  match n with
  | 0 => "0" | 1 => "1" | 2 => "2" | 3 => "3" | 4 => "4" | 5 => "5"
  | 6 => "6" | 7 => "7" | 8 => "8" | 9 => "9" | 10 => "a" | 11 => "b"
  | 12 => "c" | 13 => "d" | 14 => "e" | _ => "f"
  end%N%char.

Definition quote : string := String (ascii_of_N 34) "".
Definition backslash : string := String (ascii_of_N 92) "".

(** One character under [ensure_ascii=True]: the short escapes, then
    a [u00xx] escape for everything outside the printable range
    space..tilde. *)
Definition escape_char (c : ascii) : string :=
  let n := N_of_ascii c in
  if (n =? 34)%N then backslash ++ quote
  else if (n =? 92)%N then backslash ++ backslash
  else if (n =? 10)%N then backslash ++ "n"
  else if (n =? 13)%N then backslash ++ "r"
  else if (n =? 9)%N then backslash ++ "t"
  else if (n =? 12)%N then backslash ++ "f"
  else if (n =? 8)%N then backslash ++ "b"
  else if ((32 <=? n) && (n <=? 126))%N then String c ""
  else backslash ++ "u00"
         ++ String (hex_digit (n / 16)) (String (hex_digit (n mod 16)) "").

Fixpoint escape (s : string) : string :=
  match s with
  | "" => ""
  | String c r => escape_char c ++ escape r
  end.

Definition dumps_str (s : string) : string := quote ++ escape s ++ quote.

Definition dumps_int (n : Z) : string := NilZero.string_of_int (Z.to_int n).

(** [float.__repr__], except for the three values JSON has no syntax for
    ([allow_nan=True]). *)
Definition dumps_float (x : Py.float) : string :=
  match x with
  | Py.NaN => "NaN"
  | Py.Inf false => "Infinity"
  | Py.Inf true => "-Infinity"
  | _ => Py.str_float x
  end.

(** Items are joined by [", "] and a key is followed by [": "]: the
    default [separators]. *)
Fixpoint dumps (v : value) : string :=
  match v with
  | Int n => dumps_int n
  | Float x => dumps_float x
  | Str s => dumps_str s
  | Dict items =>
      let fix members (l : list (string * value)) : string :=
        match l with
        | [] => ""
        | [(k, x)] => dumps_str k ++ ": " ++ dumps x
        | (k, x) :: rest => dumps_str k ++ ": " ++ dumps x ++ ", " ++ members rest
        end
      in "{" ++ members items ++ "}"
  end.

(** [obj[key]] on a decoded object. *)
Fixpoint lookup (key : string) (items : list (string * value)) : option value :=
  match items with
  | [] => None
  | (k, x) :: rest => if String.eqb k key then Some x else lookup key rest
  end.

Definition field (key : string) (v : value) : option value :=
  match v with
  | Dict items => lookup key items
  | _ => None
  end.

End Json.


(** ** The collaborators: broker, transport and logging *)

(** The data points the application touches: [vehicle.Speed] and the three
    members of [vehicle.Acceleration]. *)
Inductive signal : Type :=
| Speed
| Longitudinal
| Lateral
| Vertical.

(** The two bound methods handed to [subscribe]. *)
Inductive callback : Type :=
| cb_on_speed_change
| cb_on_accel_change.

(** Exceptions: whatever a collaborator raises (broker unreachable,
    transport error, ...). *)
Inductive exn : Type :=
| CollaboratorError (what : string).

Inductive outcome (A : Type) : Type :=
| Returns (a : A)
| Raises (e : exn).
Arguments Returns {A} a.
Arguments Raises {A} e.

(** [TypedDataPointResult(path, value, timestamp)]; the application reads
    [value] only. *)
Record TypedDataPointResult : Type := {
  path : string;
  value : Py.float;
  timestamp : Z * Z
}.

(** [DataPointReply]: the data points one notification carries. *)
Definition DataPointReply : Type := signal -> option TypedDataPointResult.

(** A call that leaves the application.  [Log] is a record with its
    message formatted; [LogRaw] is a record whose format holds a conversion
    the model does not render, kept with its format and arguments. *)
Inductive call : Type :=
| Log (logger : string) (levelno : Z) (message : string)
| LogRaw (logger : string) (levelno : Z) (fmt : string) (args : list string)
| Get (s : signal)
| Subscribe (s : signal) (cb : callback)
| Publish (topic payload : string).

(** How the collaborators answer during one handler invocation.  A handler
    queries each signal and publishes on each topic at most once, so an
    answer per argument covers every behaviour of the environment. *)
Record World : Type := {
  broker_get : signal -> outcome TypedDataPointResult;
  broker_subscribe : signal -> callback -> outcome unit;
  transport_publish : string -> string -> outcome Z
}.

(** A coroutine: it reads the world, extends the trace of calls and returns
    or raises.  The trace survives an exception. *)
Definition M (A : Type) : Type := World -> list call -> outcome A * list call.

Definition ret {A} (a : A) : M A := fun _ tr => (Returns a, tr).

Definition bind {A B} (c : M A) (k : A -> M B) : M B :=
  fun w tr =>
    match c w tr with
    | (Returns a, tr') => k a w tr'
    | (Raises e, tr') => (Raises e, tr')
    end.

Definition raise {A} (e : exn) : M A := fun _ tr => (Raises e, tr).

Notation "x <- c ;; k" := (bind c (fun x => k))
  (at level 61, c at next level, right associativity).
Notation "c ;; k" := (bind c (fun _ => k))
  (at level 61, right associativity).

Definition run {A} (c : M A) (w : World) : outcome A * list call := c w [].

(** [await c]: the coroutine is suspended until [c] completes; within one
    invocation that is sequencing. *)
Definition await {A} (c : M A) : M A := c.

(** Issue a call and take the world's answer for it. *)
Definition perform {A} (c : call) (answer : World -> outcome A) : M A :=
  fun w tr => (answer w, (tr ++ [c])%list).

Definition emit (c : call) : M unit := fun _ tr => (Returns tt, (tr ++ [c])%list).

(** [<signal>.get()] *)
Definition get (s : signal) : M TypedDataPointResult :=
  perform (Get s) (fun w => broker_get w s).

(** [<signal>.subscribe(cb)] *)
Definition subscribe (s : signal) (cb : callback) : M unit :=
  perform (Subscribe s cb) (fun w => broker_subscribe w s cb).

(** [self.publish_event(topic, payload)] *)
Definition publish_event (topic payload : string) : M Z :=
  perform (Publish topic payload) (fun w => transport_publish w topic payload).

(** The path of a data point in the vehicle model. *)
Definition signal_path (s : signal) : string :=
  match s with
  | Speed => "Vehicle.Speed"
  | Longitudinal => "Vehicle.Acceleration.Longitudinal"
  | Lateral => "Vehicle.Acceleration.Lateral"
  | Vertical => "Vehicle.Acceleration.Vertical"
  end.

(** Modelled from the spec: what [DataPointReply.get] gives for a data
    point the notification does not hold.  [DataPointReply] is SDK code
    and not among the application's sources.  Section 3 of the
    specification has the relay read the entries of a notification that
    need not hold all signals, and makes a signal value a floating-point
    measurement with a timestamp: reading a missing entry does not fail,
    it gives the data point's default, the float 0.0 with the zero
    timestamp. *)
Definition default_data_point (s : signal) : TypedDataPointResult :=
  {| path := signal_path s; value := Py.Finite false 0 1; timestamp := (0, 0)%Z |}.

(** [data.get(<signal>)]: the entry the reply holds for the data point, the
    default data point when it holds none. *)
Definition DataPointReply_get (data : DataPointReply) (s : signal)
  : M TypedDataPointResult :=
  match data s with
  | Some r => ret r
  | None => ret (default_data_point s)
  end.

Module Logging.

Definition NOTSET : Z := 0.
Definition DEBUG : Z := 10.
Definition INFO : Z := 20.

(** [TimedRotatingFileHandler(filename, when, interval, backupCount,
    encoding)] with its formatter's format string. *)
Record TimedRotatingFileHandler : Type := {
  filename : string;
  when : string;
  interval : Z;
  backupCount : Z;
  encoding : string;
  formatter : string
}.

Record Logger : Type := {
  name : string;
  level : Z;
  handlers : list TimedRotatingFileHandler
}.

(** [logging.getLogger().setLevel(logging.DEBUG)] *)
Definition root_level : Z := DEBUG.

(** Every logger of the application is a child of the root logger. *)
Definition getEffectiveLevel (lg : Logger) : Z :=
  if (level lg =? NOTSET)%Z then root_level else level lg.

Definition isEnabledFor (lg : Logger) (levelno : Z) : bool :=
  (getEffectiveLevel lg <=? levelno)%Z.

(** [LogRecord.getMessage()]: the format is applied only when there are
    arguments. *)
Definition getMessage (fmt : string) (args : list string) : Py.formatted :=
  match args with
  | [] => Py.Text fmt
  | _ :: _ => Py.percent fmt args
  end.

(** [lg.log(levelno, fmt, *args)]: a record is emitted when the level is
    enabled.  A format that does not fit its arguments is reported by
    [logging] itself and the record is lost; a record with a conversion
    the model does not render is passed on as it is. *)
Definition log (lg : Logger) (levelno : Z) (fmt : string) (args : list string)
  : M unit :=
  if isEnabledFor lg levelno then
    match getMessage fmt args with
    | Py.Text message => emit (Log (name lg) levelno message)
    | Py.FormatError => ret tt
    | Py.Unrendered => emit (LogRaw (name lg) levelno fmt args)
    end
  else ret tt.

Definition info (lg : Logger) := log lg INFO.
Definition debug (lg : Logger) := log lg DEBUG.

End Logging.

(** ** main.py *)

Definition LOG_PATH := "logs/vehicle/app.log".

Definition SPEED_LOGGER_NAME := "vehicle/speed".
Definition LONGI_ACCEL_LOGGER_NAME := "vehicle/acceleration_longitudinal".
Definition LAT_ACCEL_LOGGER_NAME := "vehicle/acceleration_lateral".
Definition VER_ACCEL_LOGGER_NAME := "vehicle/acceleration_vertical".

Definition LOG_FORMAT := "%(asctime)s [%(name)s]- %(message)s".

Definition GET_SPEED_REQUEST_TOPIC := "sampleapp/getSpeed".
Definition GET_SPEED_RESPONSE_TOPIC := "sampleapp/getSpeed/response".
Definition DATABROKER_SPEED_SUBSCRIPTION_TOPIC := "sampleapp/currentSpeed".

Definition GET_LONGI_ACCEL_REQUEST_TOPIC := "sampleapp/getLongitudinalAccel".
Definition GET_LONGI_ACCEL_RESPONSE_TOPIC := "sampleapp/getLongitudinalAccel/response".
Definition DATABROKER_LONGI_ACCEL_SUBSCRIPTION_TOPIC := "sampleapp/currentLongitudinalAccel".

Definition GET_LAT_ACCEL_REQUEST_TOPIC := "sampleapp/getLateralAccel".
Definition GET_LAT_ACCEL_RESPONSE_TOPIC := "sampleapp/getLateralAccel/response".
Definition DATABROKER_LAT_ACCEL_SUBSCRIPTION_TOPIC := "sampleapp/currentLateralAccel".

Definition GET_VER_ACCEL_REQUEST_TOPIC := "sampleapp/getVerticalAccel".
Definition GET_VER_ACCEL_RESPONSE_TOPIC := "sampleapp/getVerticalAccel/response".
Definition DATABROKER_VER_ACCEL_SUBSCRIPTION_TOPIC := "sampleapp/currentVerticalAccel".

(** [logger = logging.getLogger(__name__)]: the module runs as the main
    program; its logger has no level of its own. *)
Definition logger : Logging.Logger :=
  {| Logging.name := "__main__";
     Logging.level := Logging.NOTSET;
     Logging.handlers := [] |}.

Definition setup_accel_logger (logger_name : string) : Logging.Logger :=
  let log_handler :=
    {| Logging.filename := LOG_PATH;
       Logging.when := "s";
       Logging.interval := 60;
       Logging.backupCount := 5;
       Logging.encoding := "utf-8";
       Logging.formatter := LOG_FORMAT |} in
  {| Logging.name := logger_name;
     Logging.level := Logging.INFO;
     Logging.handlers := [log_handler] |}.

Definition SpeedLogger := setup_accel_logger SPEED_LOGGER_NAME.
Definition LongiAccelLogger := setup_accel_logger LONGI_ACCEL_LOGGER_NAME.
Definition LatAccelLogger := setup_accel_logger LAT_ACCEL_LOGGER_NAME.
Definition VerAccelLogger := setup_accel_logger VER_ACCEL_LOGGER_NAME.

Module SampleApp.

Definition on_start : M unit :=
  await (subscribe Speed cb_on_speed_change) ;;
  await (subscribe Longitudinal cb_on_accel_change) ;;
  await (subscribe Lateral cb_on_accel_change) ;;
  await (subscribe Vertical cb_on_accel_change).

Definition on_speed_change (data : DataPointReply) : M unit :=
  r <- DataPointReply_get data Speed ;;
  let vehicle_speed := value r in
  Logging.info SpeedLogger "Vehicle speed: %s" [Py.str_float vehicle_speed] ;;
  await (publish_event
           DATABROKER_SPEED_SUBSCRIPTION_TOPIC
           (Json.dumps (Json.Dict [("speed", Json.Float vehicle_speed)]))) ;;
  ret tt.

Definition on_accel_change (data : DataPointReply) : M unit :=
  r1 <- DataPointReply_get data Longitudinal ;;
  let vehicle_longi_accel := value r1 in
  r2 <- DataPointReply_get data Lateral ;;
  let vehicle_lat_acceleration := value r2 in
  r3 <- DataPointReply_get data Vertical ;;
  let vehicle_ver_acceleration := value r3 in

  Logging.info LongiAccelLogger
    "Vehicle longitudinal acceleration: %s" [Py.str_float vehicle_longi_accel] ;;
  Logging.info LatAccelLogger
    "Vehicle lateral acceleration: %s" [Py.str_float vehicle_lat_acceleration] ;;
  Logging.info VerAccelLogger
    "Vehicle vertical acceleration: %s" [Py.str_float vehicle_ver_acceleration] ;;

  await (publish_event
           DATABROKER_LONGI_ACCEL_SUBSCRIPTION_TOPIC
           (Json.dumps (Json.Dict
              [("longitudinal_acceleration", Json.Float vehicle_longi_accel)]))) ;;
  await (publish_event
           DATABROKER_LAT_ACCEL_SUBSCRIPTION_TOPIC
           (Json.dumps (Json.Dict
              [("lateral_acceleration", Json.Float vehicle_lat_acceleration)]))) ;;
  await (publish_event
           DATABROKER_VER_ACCEL_SUBSCRIPTION_TOPIC
           (Json.dumps (Json.Dict
              [("vertical_acceleration", Json.Float vehicle_ver_acceleration)]))) ;;
  ret tt.

Definition on_get_speed_request_received (data : string) : M unit :=
  Logging.debug logger
    "Received speed request on topic %s with data: %s"
    [GET_SPEED_REQUEST_TOPIC; data] ;;
  r <- await (get Speed) ;;
  let vehicle_speed := value r in
  await (publish_event
           GET_SPEED_RESPONSE_TOPIC
           (Json.dumps (Json.Dict
              [("result", Json.Dict
                 [("status", Json.Int 0);
                  ("message", Json.Str ("Speed = " ++ Py.str_float vehicle_speed))])]))) ;;
  ret tt.

Definition on_get_longi_accel_request_received (data : string) : M unit :=
  Logging.debug logger
    "Received longitudinal acceleration request on topic %s with data: %s"
    [GET_LONGI_ACCEL_REQUEST_TOPIC; data] ;;
  r <- await (get Longitudinal) ;;
  let vehicle_longi_accel := value r in
  await (publish_event
           GET_LONGI_ACCEL_RESPONSE_TOPIC
           (Json.dumps (Json.Dict
              [("result", Json.Dict
                 [("status", Json.Int 0);
                  ("message", Json.Str ("Longi Acceleration = "
                                          ++ Py.str_float vehicle_longi_accel))])]))) ;;
  ret tt.

Definition on_get_lat_accel_request_received (data : string) : M unit :=
  Logging.debug logger
    "Received lateral acceleration request on topic %s with data: %s"
    [GET_LAT_ACCEL_REQUEST_TOPIC; data] ;;
  r <- await (get Lateral) ;;
  let vehicle_lat_accel := value r in
  await (publish_event
           GET_LAT_ACCEL_RESPONSE_TOPIC
           (Json.dumps (Json.Dict
              [("result", Json.Dict
                 [("status", Json.Int 0);
                  ("message", Json.Str ("LAT Acceleration = "
                                          ++ Py.str_float vehicle_lat_accel))])]))) ;;
  ret tt.

Definition on_get_ver_accel_request_received (data : string) : M unit :=
  Logging.debug logger
    "Received vertical acceleration request on topic %s with data: %s"
    [GET_VER_ACCEL_REQUEST_TOPIC; data] ;;
  r <- await (get Vertical) ;;
  let vehicle_ver_accel := value r in
  await (publish_event
           GET_VER_ACCEL_RESPONSE_TOPIC
           (Json.dumps (Json.Dict
              [("result", Json.Dict
                 [("status", Json.Int 0);
                  ("message", Json.Str ("Vertical Acceleration = "
                                          ++ Py.str_float vehicle_ver_accel))])]))) ;;
  ret tt.

(** The bindings made by the [@subscribe_topic(...)] decorators, in the
    order of the class body. *)
Definition subscribe_topic : list (string * (string -> M unit)) :=
  [ (GET_SPEED_REQUEST_TOPIC, on_get_speed_request_received);
    (GET_LONGI_ACCEL_REQUEST_TOPIC, on_get_longi_accel_request_received);
    (GET_LAT_ACCEL_REQUEST_TOPIC, on_get_lat_accel_request_received);
    (GET_VER_ACCEL_REQUEST_TOPIC, on_get_ver_accel_request_received) ].

(** The handler a message on [topic] is dispatched to. *)
Fixpoint handler_in (table : list (string * (string -> M unit))) (topic : string)
  : option (string -> M unit) :=
  match table with
  | [] => None
  | (t, h) :: rest => if String.eqb t topic then Some h else handler_in rest topic
  end.

Definition bound_handler (topic : string) : option (string -> M unit) :=
  handler_in subscribe_topic topic.

(** The method a subscription callback names. *)
Definition callback_method (cb : callback) : DataPointReply -> M unit :=
  match cb with
  | cb_on_speed_change => on_speed_change
  | cb_on_accel_change => on_accel_change
  end.

End SampleApp.

(** ** Reading a trace *)

Definition publishes (tr : list call) : list (string * string) :=
  flat_map (fun c => match c with Publish t p => [(t, p)] | _ => [] end) tr.

Definition log_lines (tr : list call) : list (string * string) :=
  flat_map (fun c => match c with Log l _ m => [(l, m)] | _ => [] end) tr.

Definition subscriptions (tr : list call) : list (signal * callback) :=
  flat_map (fun c => match c with Subscribe s cb => [(s, cb)] | _ => [] end) tr.

Definition fetches (tr : list call) : list signal :=
  flat_map (fun c => match c with Get s => [s] | _ => [] end) tr.

Definition trace_of {A} (r : outcome A * list call) : list call := snd r.
Definition result_of {A} (r : outcome A * list call) : outcome A := fst r.

(** [needle] occurs in [hay]. *)
Definition contains (needle hay : string) : Prop :=
  exists before after, hay = before ++ needle ++ after.

(** A text written with apostrophes where the JSON text has double quotes. *)
Fixpoint dq (s : string) : string :=
  match s with
  | "" => ""
  | String c r => String (if Ascii.eqb c "'" then ascii_of_N 34 else c) (dq r)
  end.

(** ** The four request/response pairs of the interface table *)

Inductive request : Type :=
| GetSpeed
| GetLongitudinalAccel
| GetLateralAccel
| GetVerticalAccel.

Definition request_topic (r : request) : string :=
  match r with
  | GetSpeed => "sampleapp/getSpeed"
  | GetLongitudinalAccel => "sampleapp/getLongitudinalAccel"
  | GetLateralAccel => "sampleapp/getLateralAccel"
  | GetVerticalAccel => "sampleapp/getVerticalAccel"
  end.

Definition response_topic (r : request) : string := request_topic r ++ "/response".

Definition bound_signal (r : request) : signal :=
  match r with
  | GetSpeed => Speed
  | GetLongitudinalAccel => Longitudinal
  | GetLateralAccel => Lateral
  | GetVerticalAccel => Vertical
  end.

Definition message_prefix (r : request) : string :=
  match r with
  | GetSpeed => "Speed = "
  | GetLongitudinalAccel => "Longi Acceleration = "
  | GetLateralAccel => "LAT Acceleration = "
  | GetVerticalAccel => "Vertical Acceleration = "
  end.

(** The response object [{"result": {"status": s, "message": m}}]. *)
Definition response (status : Z) (message : string) : Json.value :=
  Json.Dict [("result", Json.Dict [("status", Json.Int status);
                                   ("message", Json.Str message)])].

Definition status_of (body : Json.value) : option Json.value :=
  match Json.field "result" body with
  | Some r => Json.field "status" r
  | None => None
  end.

Definition message_of (body : Json.value) : option Json.value :=
  match Json.field "result" body with
  | Some r => Json.field "message" r
  | None => None
  end.

(** The handler for each request, as the decorators bind them. *)
Definition handler_of (r : request) : string -> M unit :=
  match r with
  | GetSpeed => SampleApp.on_get_speed_request_received
  | GetLongitudinalAccel => SampleApp.on_get_longi_accel_request_received
  | GetLateralAccel => SampleApp.on_get_lat_accel_request_received
  | GetVerticalAccel => SampleApp.on_get_ver_accel_request_received
  end.

Definition request_noun (r : request) : string :=
  match r with
  | GetSpeed => "speed"
  | GetLongitudinalAccel => "longitudinal acceleration"
  | GetLateralAccel => "lateral acceleration"
  | GetVerticalAccel => "vertical acceleration"
  end.

(** The diagnostic line a request handler logs first. *)
Definition request_log (r : request) (data : string) : call :=
  Log "__main__" Logging.DEBUG
    ("Received " ++ request_noun r ++ " request on topic " ++ request_topic r
       ++ " with data: " ++ data).

Definition response_publish (r : request) (res : TypedDataPointResult) : call :=
  Publish (response_topic r)
    (Json.dumps (response 0 (message_prefix r ++ Py.str_float (value res)))).

(** What a coroutine returns after an awaited call whose value it drops. *)
Definition discard {A} (o : outcome A) : outcome unit :=
  match o with
  | Returns _ => Returns tt
  | Raises e => Raises e
  end.

(** [data] carries value [x] for signal [s]. *)
Definition carries (data : DataPointReply) (s : signal) (x : Py.float) : Prop :=
  exists r, data s = Some r /\ value r = x.

(** The transport completes every publish, whatever code it returns. *)
Definition publish_returns (w : World) : Prop :=
  forall t p, exists rc, transport_publish w t p = Returns rc.

(** The broker accepts every subscription. *)
Definition subscribe_returns (w : World) : Prop :=
  forall s cb, broker_subscribe w s cb = Returns tt.

Definition longi_line (x : Py.float) : call :=
  Log LONGI_ACCEL_LOGGER_NAME Logging.INFO
    ("Vehicle longitudinal acceleration: " ++ Py.str_float x).
Definition lat_line (x : Py.float) : call :=
  Log LAT_ACCEL_LOGGER_NAME Logging.INFO
    ("Vehicle lateral acceleration: " ++ Py.str_float x).
Definition ver_line (x : Py.float) : call :=
  Log VER_ACCEL_LOGGER_NAME Logging.INFO
    ("Vehicle vertical acceleration: " ++ Py.str_float x).

Definition longi_payload (x : Py.float) : string :=
  Json.dumps (Json.Dict [("longitudinal_acceleration", Json.Float x)]).
Definition lat_payload (x : Py.float) : string :=
  Json.dumps (Json.Dict [("lateral_acceleration", Json.Float x)]).
Definition ver_payload (x : Py.float) : string :=
  Json.dumps (Json.Dict [("vertical_acceleration", Json.Float x)]).

(** *** Sample inputs *)

Definition sample_result (x : Py.float) : TypedDataPointResult :=
  {| path := "foo"; value := x; timestamp := (10, 0)%Z |}.

Definition f_42_5 : Py.float := Py.Finite false 425 2.
Definition f_1_0 : Py.float := Py.Finite false 1 1.
Definition f_minus_0_5 : Py.float := Py.Finite true 5 0.
Definition f_9_81 : Py.float := Py.Finite false 981 1.

(** A broker that reports 42.5 for every signal and a transport that
    accepts every message. *)
Definition calm_world : World :=
  {| broker_get := fun _ => Returns (sample_result f_42_5);
     broker_subscribe := fun _ _ => Returns tt;
     transport_publish := fun _ _ => Returns 0%Z |}.

(** A broker that cannot be reached. *)
Definition broker_down : World :=
  {| broker_get := fun _ => Raises (CollaboratorError "broker unreachable");
     broker_subscribe := fun _ _ => Raises (CollaboratorError "broker unreachable");
     transport_publish := fun _ _ => Returns 0%Z |}.

(** A transport that fails on the longitudinal topic only. *)
Definition longi_transport_down : World :=
  {| broker_get := fun _ => Returns (sample_result f_42_5);
     broker_subscribe := fun _ _ => Returns tt;
     transport_publish := fun t _ =>
       if String.eqb t DATABROKER_LONGI_ACCEL_SUBSCRIPTION_TOPIC
       then Raises (CollaboratorError "transport error")
       else Returns 0%Z |}.

Definition speed_notification : DataPointReply :=
  fun s => match s with Speed => Some (sample_result f_42_5) | _ => None end.

Definition accel_notification : DataPointReply :=
  fun s =>
    match s with
    | Speed => None
    | Longitudinal => Some (sample_result f_1_0)
    | Lateral => Some (sample_result f_minus_0_5)
    | Vertical => Some (sample_result f_9_81)
    end.

(** The notification of a subscription to the longitudinal axis alone. *)
Definition longi_only_notification : DataPointReply :=
  fun s => match s with Longitudinal => Some (sample_result f_1_0) | _ => None end.

(** The response text of the speed scenario as the specification prints
    it, without blanks. *)
Definition compact_speed_response : string :=
  dq "{'result':{'status':0,'message':'Speed = 42.5'}}".

(** *** Events, startup order and plain text *)

(** What the SDK delivers to the application: a change notification to the
    callback of a subscription, or a message on a request topic to the
    handler bound to it. *)
Inductive event : Type :=
| Notification (cb : callback) (data : DataPointReply)
| RequestMessage (r : request) (payload : string).

Definition handle (ev : event) : M unit :=
  match ev with
  | Notification cb data => SampleApp.callback_method cb data
  | RequestMessage r payload => handler_of r payload
  end.

(** The subscriptions of [on_start], in the order of its statements. *)
Definition startup_subscriptions : list (signal * callback) :=
  [(Speed, cb_on_speed_change);
   (Longitudinal, cb_on_accel_change);
   (Lateral, cb_on_accel_change);
   (Vertical, cb_on_accel_change)].

(** A character [json.dumps] copies unchanged: printable ASCII other than
    the double quote and the backslash. *)
Definition plain_char (c : ascii) : bool :=
  let n := N_of_ascii c in
  ((32 <=? n) && (n <=? 126) && negb (n =? 34) && negb (n =? 92))%N.

Fixpoint plain (s : string) : bool :=
  match s with
  | "" => true
  | String c r => plain_char c && plain r
  end.

(** What [data.get(<signal>)] hands to the callback. *)
Definition reply_entry (data : DataPointReply) (s : signal) : TypedDataPointResult :=
  match data s with
  | Some r => r
  | None => default_data_point s
  end.

(** The notification with every missing entry written out. *)
Definition with_defaults (data : DataPointReply) : DataPointReply :=
  fun s => Some (reply_entry data s).


(** A transport that fails on the lateral topic only. *)
Definition lat_transport_down : World :=
  {| broker_get := fun _ => Returns (sample_result f_42_5);
     broker_subscribe := fun _ _ => Returns tt;
     transport_publish := fun t _ =>
       if String.eqb t DATABROKER_LAT_ACCEL_SUBSCRIPTION_TOPIC
       then Raises (CollaboratorError "transport error")
       else Returns 0%Z |}.

(** A payload with a format directive and a quote in it. *)
Definition odd_payload : string := "100%s " ++ Json.quote ++ "now" ++ Json.quote.

(** A transport that reports failure through its return code. *)
Definition refusing_transport : World :=
  {| broker_get := fun _ => Returns (sample_result f_42_5);
     broker_subscribe := fun _ _ => Returns tt;
     transport_publish := fun _ _ => Returns (-1)%Z |}.

(** A broker that accepts the speed subscription and refuses the others. *)
Definition accel_subscription_refused : World :=
  {| broker_get := fun _ => Returns (sample_result f_42_5);
     broker_subscribe := fun s _ =>
       match s with
       | Speed => Returns tt
       | _ => Raises (CollaboratorError "subscription refused")
       end;
     transport_publish := fun _ _ => Returns 0%Z |}.

(** A notification with every signal, speed included. *)
Definition full_notification : DataPointReply :=
  fun s =>
    match s with
    | Speed => Some (sample_result f_42_5)
    | Longitudinal => Some (sample_result f_1_0)
    | Lateral => Some (sample_result f_minus_0_5)
    | Vertical => Some (sample_result f_9_81)
    end.

(** Both sides of a run equation consult the transport about the same
    publish: name it once, then split on its answer. *)
Ltac same_publish w :=
  match goal with
  | |- context [match transport_publish w ?t ?p with _ => _ end] =>
      match goal with
      | |- context [discard (transport_publish w ?t' ?p')] =>
          change (transport_publish w t' p') with (transport_publish w t p)
      end;
      destruct (transport_publish w t p); reflexivity
  end.

(** * Properties *)

(** [str] on sample floats, as the interpreter prints them. *)
Example str_float_samples :
  map Py.str_float
    [f_42_5; f_1_0; f_minus_0_5; f_9_81; Py.Finite false 0 1;
     Py.Finite false 1 17; Py.Finite false 15 (-4); Py.Finite false 1 (-3);
     Py.Inf true; Py.NaN]
  = ["42.5"; "1.0"; "-0.5"; "9.81"; "0.0"; "1e+16"; "1.5e-05"; "0.0001";
     "-inf"; "nan"].
Proof. reflexivity. Qed.

(** The three results of a format: rendered, rejected by Python, and left
    unrendered by the model. *)
Example percent_samples :
  Py.percent "%s of 100%%" ["42.5"] = Py.Text "42.5 of 100%" /\
  Py.percent "%s and %s" ["a"] = Py.FormatError /\
  Py.percent "done" ["a"] = Py.FormatError /\
  Py.percent "v=%r" ["x"] = Py.Unrendered.
Proof. repeat split. Qed.

(** A string with a quote, a backslash, a newline and a byte above tilde. *)
Example dumps_str_escapes :
  Json.dumps (Json.Str (String (ascii_of_N 34)
                          (String (ascii_of_N 92)
                             (String (ascii_of_N 10)
                                (String (ascii_of_N 233) "a")))))
  = Json.quote ++ Json.backslash ++ Json.quote ++ Json.backslash ++ Json.backslash
      ++ Json.backslash ++ "n" ++ Json.backslash ++ "u00e9" ++ "a" ++ Json.quote.
Proof. reflexivity. Qed.

Lemma append_nil_r (s : string) : s ++ "" = s.
Proof. induction s; simpl; congruence. Qed.

Lemma contains_suffix (pre x : string) : contains x (pre ++ x).
Proof. exists pre, "". now rewrite append_nil_r. Qed.

Lemma bound_handler_of (r : request) :
  SampleApp.bound_handler (request_topic r) = Some (handler_of r).
Proof. destruct r; reflexivity. Qed.

(** The run of a request handler, in closed form: the diagnostic line,
    the fetch, and after a successful fetch one publish. *)
Lemma handler_of_run (r : request) (w : World) (data : string) :
  run (handler_of r data) w =
    match broker_get w (bound_signal r) with
    | Raises e => (Raises e, [request_log r data; Get (bound_signal r)])
    | Returns res =>
        (discard (transport_publish w (response_topic r)
                    (Json.dumps (response 0 (message_prefix r
                                               ++ Py.str_float (value res))))),
         [request_log r data; Get (bound_signal r); response_publish r res])
    end.
Proof.
  destruct r; unfold run, handler_of, request_log, response_publish;
    cbn -[Json.dumps Py.str_float];
    rewrite append_nil_r;
    (destruct (broker_get w _) as [res|e]; [|reflexivity]);
    cbn -[Json.dumps Py.str_float];
    same_publish w.
Qed.

(** The run of [on_speed_change], in closed form. *)
Lemma on_speed_change_run (w : World) (data : DataPointReply) :
  run (SampleApp.on_speed_change data) w =
    (discard (transport_publish w DATABROKER_SPEED_SUBSCRIPTION_TOPIC
                (Json.dumps (Json.Dict
                   [("speed", Json.Float (value (reply_entry data Speed)))]))),
     [Log SPEED_LOGGER_NAME Logging.INFO
        ("Vehicle speed: " ++ Py.str_float (value (reply_entry data Speed)));
      Publish DATABROKER_SPEED_SUBSCRIPTION_TOPIC
        (Json.dumps (Json.Dict
           [("speed", Json.Float (value (reply_entry data Speed)))]))]).
Proof.
  unfold run, SampleApp.on_speed_change, DataPointReply_get, reply_entry.
  destruct (data Speed) as [r|];
    cbn -[Json.dumps Py.str_float]; rewrite append_nil_r;
    same_publish w.
Qed.

Lemma reply_entry_some (data : DataPointReply) (s : signal) (r : TypedDataPointResult) :
  data s = Some r -> reply_entry data s = r.
Proof. unfold reply_entry. now intros ->. Qed.

(** A callback cannot tell a notification from the one with its missing
    entries written out. *)
Lemma on_accel_change_with_defaults (w : World) (data : DataPointReply) :
  run (SampleApp.on_accel_change data) w
  = run (SampleApp.on_accel_change (with_defaults data)) w.
Proof.
  unfold run, SampleApp.on_accel_change, DataPointReply_get, with_defaults, reply_entry.
  destruct (data Longitudinal), (data Lateral), (data Vertical); reflexivity.
Qed.

(** The run of [on_accel_change] on a notification with all three axes:
    three lines, then the publishes up to the first that raises. *)
Lemma on_accel_change_run (w : World) (data : DataPointReply)
      (r1 r2 r3 : TypedDataPointResult) :
  data Longitudinal = Some r1 -> data Lateral = Some r2 -> data Vertical = Some r3 ->
  let lines := [longi_line (value r1); lat_line (value r2); ver_line (value r3)] in
  let pL := Publish DATABROKER_LONGI_ACCEL_SUBSCRIPTION_TOPIC (longi_payload (value r1)) in
  let pA := Publish DATABROKER_LAT_ACCEL_SUBSCRIPTION_TOPIC (lat_payload (value r2)) in
  let pV := Publish DATABROKER_VER_ACCEL_SUBSCRIPTION_TOPIC (ver_payload (value r3)) in
  run (SampleApp.on_accel_change data) w =
    match transport_publish w DATABROKER_LONGI_ACCEL_SUBSCRIPTION_TOPIC
            (longi_payload (value r1)) with
    | Raises e => (Raises e, lines ++ [pL])%list
    | Returns _ =>
        match transport_publish w DATABROKER_LAT_ACCEL_SUBSCRIPTION_TOPIC
                (lat_payload (value r2)) with
        | Raises e => (Raises e, lines ++ [pL; pA])%list
        | Returns _ =>
            (discard (transport_publish w DATABROKER_VER_ACCEL_SUBSCRIPTION_TOPIC
                        (ver_payload (value r3))),
             lines ++ [pL; pA; pV])%list
        end
    end.
Proof.
  intros H1 H2 H3.
  unfold run, SampleApp.on_accel_change, DataPointReply_get,
    longi_line, lat_line, ver_line, longi_payload, lat_payload, ver_payload.
  unfold bind at 1. rewrite H1. unfold ret at 1.
  unfold bind at 1. rewrite H2. unfold ret at 1.
  unfold bind at 1. rewrite H3. unfold ret at 1.
  cbn -[Json.dumps Py.str_float]. rewrite !append_nil_r.
  repeat match goal with
         | |- context [match transport_publish w ?t ?p with _ => _ end] =>
             destruct (transport_publish w t p)
         end; reflexivity.
Qed.

(** ** Request handlers *)

(** C1.  For each of the four request topics, when the handler bound to the
    topic runs and the fetch of the bound signal returns a result, the
    handler fetches that signal once and issues exactly one publish, on the
    paired response topic; the body is the encoding of an object whose
    [result.status] is 0 and whose [result.message] is the signal's text
    followed by [str] of the fetched value. *)
Theorem request_answered_once (r : request) (w : World) (data : string)
        (res : TypedDataPointResult) :
  broker_get w (bound_signal r) = Returns res ->
  exists h body message,
    SampleApp.bound_handler (request_topic r) = Some h /\
    fetches (trace_of (run (h data) w)) = [bound_signal r] /\
    publishes (trace_of (run (h data) w)) = [(response_topic r, Json.dumps body)] /\
    status_of body = Some (Json.Int 0) /\
    message_of body = Some (Json.Str message) /\
    message = message_prefix r ++ Py.str_float (value res) /\
    contains (Py.str_float (value res)) message.
Proof.
  intros Hget.
  exists (handler_of r),
    (response 0 (message_prefix r ++ Py.str_float (value res))),
    (message_prefix r ++ Py.str_float (value res)).
  rewrite handler_of_run, Hget.
  repeat split; try reflexivity.
  - apply bound_handler_of.
  - apply contains_suffix.
Qed.

Lemma request_answered_once_witness :
  exists h body message,
    SampleApp.bound_handler (request_topic GetVerticalAccel) = Some h /\
    fetches (trace_of (run (h "{}") calm_world)) = [Vertical] /\
    publishes (trace_of (run (h "{}") calm_world))
      = [(response_topic GetVerticalAccel, Json.dumps body)] /\
    status_of body = Some (Json.Int 0) /\
    message_of body = Some (Json.Str message) /\
    message = message_prefix GetVerticalAccel ++ Py.str_float (value (sample_result f_42_5)) /\
    contains (Py.str_float (value (sample_result f_42_5))) message.
Proof.
  apply (request_answered_once GetVerticalAccel calm_world "{}" (sample_result f_42_5)).
  reflexivity.
Defined.

(** C4.  When the fetch of the bound signal raises, the handler raises the
    same exception and its trace holds no publish. *)
Theorem request_fetch_failure_propagates (r : request) (w : World) (data : string)
        (e : exn) :
  broker_get w (bound_signal r) = Raises e ->
  exists h,
    SampleApp.bound_handler (request_topic r) = Some h /\
    result_of (run (h data) w) = Raises e /\
    publishes (trace_of (run (h data) w)) = [].
Proof.
  intros Hget. exists (handler_of r).
  rewrite handler_of_run, Hget.
  split; [apply bound_handler_of | split; reflexivity].
Qed.

Lemma request_fetch_failure_propagates_witness :
  exists h,
    SampleApp.bound_handler (request_topic GetSpeed) = Some h /\
    result_of (run (h "now") broker_down)
      = Raises (CollaboratorError "broker unreachable") /\
    publishes (trace_of (run (h "now") broker_down)) = [].
Proof.
  apply (request_fetch_failure_propagates GetSpeed broker_down "now").
  reflexivity.
Defined.

(** C6.  Whatever a request handler publishes is published on its response
    topic and is the encoding of [{"result": {"status": 0, "message": m}}]
    for some string [m]: the status is 0 in every world and for every
    payload. *)
Theorem response_status_always_zero (r : request) (w : World) (data : string)
        (h : string -> M unit) (t p : string) :
  SampleApp.bound_handler (request_topic r) = Some h ->
  In (t, p) (publishes (trace_of (run (h data) w))) ->
  exists message,
    t = response_topic r /\
    p = Json.dumps (response 0 message) /\
    status_of (response 0 message) = Some (Json.Int 0) /\
    message_of (response 0 message) = Some (Json.Str message).
Proof.
  rewrite bound_handler_of. intros [= <-] Hin.
  rewrite handler_of_run in Hin.
  destruct (broker_get w (bound_signal r)) as [res|e]; cbn in Hin.
  - destruct Hin as [[= <- <-]|[]].
    exists (message_prefix r ++ Py.str_float (value res)).
    repeat split; reflexivity.
  - destruct Hin.
Qed.

Lemma response_status_always_zero_witness :
  exists message,
    GET_LAT_ACCEL_RESPONSE_TOPIC = response_topic GetLateralAccel /\
    dq "{'result': {'status': 0, 'message': 'LAT Acceleration = 42.5'}}"
      = Json.dumps (response 0 message) /\
    status_of (response 0 message) = Some (Json.Int 0) /\
    message_of (response 0 message) = Some (Json.Str message).
Proof.
  apply (response_status_always_zero GetLateralAccel calm_world "ignored"
           SampleApp.on_get_lat_accel_request_received).
  - reflexivity.
  - vm_compute. left. reflexivity.
Defined.

(** C9.  The publishes of the handler bound to a request topic are fixed by
    the answer of the fetch alone: two invocations with any two payloads,
    in any two worlds that answer the fetch alike, publish the same topic
    and body. *)
Theorem response_independent_of_payload (r : request) (w1 w2 : World)
        (p1 p2 : string) :
  broker_get w1 (bound_signal r) = broker_get w2 (bound_signal r) ->
  exists h,
    SampleApp.bound_handler (request_topic r) = Some h /\
    publishes (trace_of (run (h p1) w1)) = publishes (trace_of (run (h p2) w2)).
Proof.
  intros Hsame. exists (handler_of r). split; [apply bound_handler_of|].
  rewrite !handler_of_run, Hsame.
  destruct (broker_get w2 (bound_signal r)); reflexivity.
Qed.

Lemma response_independent_of_payload_witness :
  exists h,
    SampleApp.bound_handler (request_topic GetLongitudinalAccel) = Some h /\
    publishes (trace_of (run (h "{'id': 1}") calm_world))
      = publishes (trace_of (run (h "stop") longi_transport_down)).
Proof.
  apply (response_independent_of_payload GetLongitudinalAccel
           calm_world longi_transport_down "{'id': 1}" "stop").
  reflexivity.
Defined.

(** C7, the scenario as stated, fails: with the broker reporting 42.5 the
    payload published on the response topic is not the text without
    blanks. *)
Lemma speed_response_is_not_compact :
  value (sample_result f_42_5) = f_42_5 /\
  broker_get calm_world Speed = Returns (sample_result f_42_5) /\
  publishes (trace_of (run (SampleApp.on_get_speed_request_received "req") calm_world))
    <> [("sampleapp/getSpeed/response", compact_speed_response)].
Proof.
  split; [reflexivity | split; [reflexivity|]].
  vm_compute. intros H. discriminate H.
Qed.

(** C7, amended.  With the broker reporting 42.5, the handler bound to
    [sampleapp/getSpeed] publishes once, on [sampleapp/getSpeed/response],
    the text [json.dumps] gives with its default separators; it encodes
    the object [{"result": {"status": 0, "message": "Speed = 42.5"}}]. *)
Theorem speed_response_scenario (w : World) (data : string)
        (res : TypedDataPointResult) :
  broker_get w Speed = Returns res ->
  value res = f_42_5 ->
  exists h,
    SampleApp.bound_handler "sampleapp/getSpeed" = Some h /\
    publishes (trace_of (run (h data) w))
      = [("sampleapp/getSpeed/response",
          dq "{'result': {'status': 0, 'message': 'Speed = 42.5'}}")] /\
    dq "{'result': {'status': 0, 'message': 'Speed = 42.5'}}"
      = Json.dumps (response 0 "Speed = 42.5").
Proof.
  intros Hget Hval. exists (handler_of GetSpeed).
  split; [reflexivity|].
  rewrite handler_of_run. cbn [bound_signal]. rewrite Hget.
  unfold response_publish. rewrite Hval.
  split; reflexivity.
Qed.

Lemma speed_response_scenario_witness :
  exists h,
    SampleApp.bound_handler "sampleapp/getSpeed" = Some h /\
    publishes (trace_of (run (h "req") calm_world))
      = [("sampleapp/getSpeed/response",
          dq "{'result': {'status': 0, 'message': 'Speed = 42.5'}}")] /\
    dq "{'result': {'status': 0, 'message': 'Speed = 42.5'}}"
      = Json.dumps (response 0 "Speed = 42.5").
Proof.
  apply (speed_response_scenario calm_world "req" (sample_result f_42_5));
    reflexivity.
Defined.

(** ** Change notifications *)

(** C5.  On a notification carrying speed [V], [on_speed_change] logs one
    line, ["Vehicle speed: "] followed by [str(V)], on the speed logger and
    issues one publish, on [sampleapp/currentSpeed], of the encoding of
    [{"speed": V}]. *)
Theorem speed_change_relayed (w : World) (data : DataPointReply) (V : Py.float) :
  carries data Speed V ->
  let tr := trace_of (run (SampleApp.on_speed_change data) w) in
  log_lines tr = [("vehicle/speed", "Vehicle speed: " ++ Py.str_float V)] /\
  contains (Py.str_float V) ("Vehicle speed: " ++ Py.str_float V) /\
  publishes tr
    = [("sampleapp/currentSpeed", Json.dumps (Json.Dict [("speed", Json.Float V)]))] /\
  Json.dumps (Json.Dict [("speed", Json.Float V)])
    = dq "{'speed': " ++ Json.dumps_float V ++ "}".
Proof.
  intros (r & Hr & <-). cbv zeta.
  rewrite on_speed_change_run, (reply_entry_some _ _ _ Hr).
  repeat split; try reflexivity.
  apply contains_suffix.
Qed.

Lemma speed_change_relayed_witness :
  let tr := trace_of (run (SampleApp.on_speed_change speed_notification) calm_world) in
  log_lines tr = [("vehicle/speed", "Vehicle speed: " ++ Py.str_float f_42_5)] /\
  contains (Py.str_float f_42_5) ("Vehicle speed: " ++ Py.str_float f_42_5) /\
  publishes tr
    = [("sampleapp/currentSpeed",
        Json.dumps (Json.Dict [("speed", Json.Float f_42_5)]))] /\
  Json.dumps (Json.Dict [("speed", Json.Float f_42_5)])
    = dq "{'speed': " ++ Json.dumps_float f_42_5 ++ "}".
Proof.
  apply (speed_change_relayed calm_world speed_notification f_42_5).
  exists (sample_result f_42_5). split; reflexivity.
Defined.

(** C2 as stated fails: the notification carries all three values, yet
    with a transport that raises on the lateral publish [on_accel_change]
    issues two publishes, not three; the three log lines are there. *)
Lemma accel_two_publishes_when_lateral_raises :
  let out := run (SampleApp.on_accel_change accel_notification) lat_transport_down in
  carries accel_notification Longitudinal f_1_0 /\
  carries accel_notification Lateral f_minus_0_5 /\
  carries accel_notification Vertical f_9_81 /\
  List.length (log_lines (trace_of out)) = 3%nat /\
  publishes (trace_of out)
    = [("sampleapp/currentLongitudinalAccel", dq "{'longitudinal_acceleration': 1.0}");
       ("sampleapp/currentLateralAccel", dq "{'lateral_acceleration': -0.5}")] /\
  List.length (publishes (trace_of out)) <> 3%nat.
Proof.
  cbv zeta.
  split; [exists (sample_result f_1_0); split; reflexivity|].
  split; [exists (sample_result f_minus_0_5); split; reflexivity|].
  split; [exists (sample_result f_9_81); split; reflexivity|].
  split; [reflexivity|].
  split; [reflexivity|].
  vm_compute. intros H. discriminate H.
Qed.

(** C2, amended.  On a notification carrying longitudinal [L], lateral [A] and
    vertical [Vt], [on_accel_change] logs three lines, one per axis logger
    and each ending in its axis value, in the order longitudinal, lateral,
    vertical; and when the transport completes every publish it issues
    three publishes, one per axis topic in the same order, each the
    encoding of a one-key object holding its axis value, and returns. *)
Theorem accel_change_relayed (w : World) (data : DataPointReply) (L A Vt : Py.float) :
  carries data Longitudinal L ->
  carries data Lateral A ->
  carries data Vertical Vt ->
  let out := run (SampleApp.on_accel_change data) w in
  log_lines (trace_of out)
    = [("vehicle/acceleration_longitudinal",
        "Vehicle longitudinal acceleration: " ++ Py.str_float L);
       ("vehicle/acceleration_lateral",
        "Vehicle lateral acceleration: " ++ Py.str_float A);
       ("vehicle/acceleration_vertical",
        "Vehicle vertical acceleration: " ++ Py.str_float Vt)] /\
  (publish_returns w ->
   publishes (trace_of out)
     = [("sampleapp/currentLongitudinalAccel",
         Json.dumps (Json.Dict [("longitudinal_acceleration", Json.Float L)]));
        ("sampleapp/currentLateralAccel",
         Json.dumps (Json.Dict [("lateral_acceleration", Json.Float A)]));
        ("sampleapp/currentVerticalAccel",
         Json.dumps (Json.Dict [("vertical_acceleration", Json.Float Vt)]))] /\
   out = (Returns tt,
          [longi_line L; lat_line A; ver_line Vt;
           Publish "sampleapp/currentLongitudinalAccel" (longi_payload L);
           Publish "sampleapp/currentLateralAccel" (lat_payload A);
           Publish "sampleapp/currentVerticalAccel" (ver_payload Vt)])).
Proof.
  intros (r1 & H1 & <-) (r2 & H2 & <-) (r3 & H3 & <-). cbv zeta.
  rewrite (on_accel_change_run w data r1 r2 r3 H1 H2 H3).
  split.
  - repeat match goal with
           | |- context [match transport_publish w ?t ?p with _ => _ end] =>
               destruct (transport_publish w t p)
           | |- context [discard (transport_publish w ?t ?p)] =>
               destruct (transport_publish w t p)
           end; reflexivity.
  - intros Hpub.
    destruct (Hpub DATABROKER_LONGI_ACCEL_SUBSCRIPTION_TOPIC (longi_payload (value r1)))
      as [c1 ->].
    destruct (Hpub DATABROKER_LAT_ACCEL_SUBSCRIPTION_TOPIC (lat_payload (value r2)))
      as [c2 ->].
    destruct (Hpub DATABROKER_VER_ACCEL_SUBSCRIPTION_TOPIC (ver_payload (value r3)))
      as [c3 ->].
    split; reflexivity.
Qed.

Lemma accel_change_relayed_witness :
  let out := run (SampleApp.on_accel_change accel_notification) calm_world in
  log_lines (trace_of out)
    = [("vehicle/acceleration_longitudinal", "Vehicle longitudinal acceleration: 1.0");
       ("vehicle/acceleration_lateral", "Vehicle lateral acceleration: -0.5");
       ("vehicle/acceleration_vertical", "Vehicle vertical acceleration: 9.81")] /\
  publishes (trace_of out)
    = [("sampleapp/currentLongitudinalAccel", dq "{'longitudinal_acceleration': 1.0}");
       ("sampleapp/currentLateralAccel", dq "{'lateral_acceleration': -0.5}");
       ("sampleapp/currentVerticalAccel", dq "{'vertical_acceleration': 9.81}")].
Proof.
  assert (HL : carries accel_notification Longitudinal f_1_0)
    by (exists (sample_result f_1_0); split; reflexivity).
  assert (HA : carries accel_notification Lateral f_minus_0_5)
    by (exists (sample_result f_minus_0_5); split; reflexivity).
  assert (HV : carries accel_notification Vertical f_9_81)
    by (exists (sample_result f_9_81); split; reflexivity).
  assert (HP : publish_returns calm_world)
    by (intros t p; exists 0%Z; reflexivity).
  destruct (accel_change_relayed calm_world accel_notification
              f_1_0 f_minus_0_5 f_9_81 HL HA HV) as [Hlog Hpub].
  destruct (Hpub HP) as [Hp _].
  split; [exact Hlog | exact Hp].
Defined.

(** C3 as stated fails: when the transport raises on the longitudinal
    publish, [on_accel_change] ends with that exception after the three
    log lines and that one publish; the lateral and vertical publishes are
    never issued. *)
Lemma accel_publish_failure_stops_siblings :
  let out := run (SampleApp.on_accel_change accel_notification) longi_transport_down in
  transport_publish longi_transport_down
    "sampleapp/currentLongitudinalAccel" (longi_payload f_1_0)
    = Raises (CollaboratorError "transport error") /\
  out = (Raises (CollaboratorError "transport error"),
         [longi_line f_1_0; lat_line f_minus_0_5; ver_line f_9_81;
          Publish "sampleapp/currentLongitudinalAccel" (longi_payload f_1_0)]) /\
  ~ In "sampleapp/currentLateralAccel" (map fst (publishes (trace_of out))) /\
  ~ In "sampleapp/currentVerticalAccel" (map fst (publishes (trace_of out))).
Proof.
  cbv zeta.
  assert (E : run (SampleApp.on_accel_change accel_notification) longi_transport_down
              = (Raises (CollaboratorError "transport error"),
                 [longi_line f_1_0; lat_line f_minus_0_5; ver_line f_9_81;
                  Publish "sampleapp/currentLongitudinalAccel" (longi_payload f_1_0)]))
    by (vm_compute; reflexivity).
  rewrite E.
  split; [reflexivity | split; [reflexivity|]].
  split; cbn; intros [H|[]]; discriminate H.
Qed.

(** C3, amended.  The three publishes are awaited one after the other
    without any handler around them.  A publish that returns, whatever its
    code, is followed by the publish of the next axis; a publish that
    raises ends [on_accel_change] with that exception, and the publishes of
    the later axes are not issued.  No topic is published twice. *)
Theorem accel_publishes_sequential (w : World) (data : DataPointReply)
        (L A Vt : Py.float) :
  carries data Longitudinal L ->
  carries data Lateral A ->
  carries data Vertical Vt ->
  let out := run (SampleApp.on_accel_change data) w in
  let pL := ("sampleapp/currentLongitudinalAccel", longi_payload L) in
  let pA := ("sampleapp/currentLateralAccel", lat_payload A) in
  let pV := ("sampleapp/currentVerticalAccel", ver_payload Vt) in
  match transport_publish w (fst pL) (snd pL) with
  | Raises e => result_of out = Raises e /\ publishes (trace_of out) = [pL]
  | Returns _ =>
      match transport_publish w (fst pA) (snd pA) with
      | Raises e => result_of out = Raises e /\ publishes (trace_of out) = [pL; pA]
      | Returns _ =>
          result_of out = discard (transport_publish w (fst pV) (snd pV)) /\
          publishes (trace_of out) = [pL; pA; pV]
      end
  end.
Proof.
  intros (r1 & H1 & <-) (r2 & H2 & <-) (r3 & H3 & <-). cbv zeta.
  rewrite (on_accel_change_run w data r1 r2 r3 H1 H2 H3).
  cbn [fst snd].
  change "sampleapp/currentLongitudinalAccel" with DATABROKER_LONGI_ACCEL_SUBSCRIPTION_TOPIC.
  change "sampleapp/currentLateralAccel" with DATABROKER_LAT_ACCEL_SUBSCRIPTION_TOPIC.
  change "sampleapp/currentVerticalAccel" with DATABROKER_VER_ACCEL_SUBSCRIPTION_TOPIC.
  destruct (transport_publish w DATABROKER_LONGI_ACCEL_SUBSCRIPTION_TOPIC _);
    [|split; reflexivity].
  destruct (transport_publish w DATABROKER_LAT_ACCEL_SUBSCRIPTION_TOPIC _);
    [|split; reflexivity].
  split; reflexivity.
Qed.

Lemma accel_publishes_sequential_witness :
  let out := run (SampleApp.on_accel_change accel_notification) calm_world in
  result_of out = Returns tt /\
  publishes (trace_of out)
    = [("sampleapp/currentLongitudinalAccel", longi_payload f_1_0);
       ("sampleapp/currentLateralAccel", lat_payload f_minus_0_5);
       ("sampleapp/currentVerticalAccel", ver_payload f_9_81)].
Proof.
  apply (accel_publishes_sequential calm_world accel_notification
           f_1_0 f_minus_0_5 f_9_81);
    eexists; split; reflexivity.
Defined.




(** The callback of the acceleration subscriptions, run on the notification
    of the longitudinal subscription alone, reports 0.0 for the lateral and
    the vertical axis. *)
Example per_axis_notification_zeroes_others :
  log_lines (trace_of
    (run (SampleApp.callback_method cb_on_accel_change longi_only_notification)
       calm_world))
  = [("vehicle/acceleration_longitudinal", "Vehicle longitudinal acceleration: 1.0");
     ("vehicle/acceleration_lateral", "Vehicle lateral acceleration: 0.0");
     ("vehicle/acceleration_vertical", "Vehicle vertical acceleration: 0.0")].
Proof. reflexivity. Qed.

(** ** Startup *)

(** C8 as stated fails: with a broker that accepts every subscription,
    [on_start] registers four subscriptions, not two, and three of them are
    for the acceleration axes. *)
Lemma on_start_registers_four_not_two :
  let subs := subscriptions (trace_of (run SampleApp.on_start calm_world)) in
  List.length subs <> 2%nat /\
  List.length subs = 4%nat /\
  List.length (filter (fun sc => match snd sc with
                                 | cb_on_accel_change => true
                                 | cb_on_speed_change => false
                                 end) subs) = 3%nat.
Proof.
  cbv zeta. vm_compute. repeat split. intros H. discriminate H.
Qed.

(** C8, amended.  With a broker that accepts every subscription, [on_start]
    registers exactly four subscriptions, one per signal, in the order
    speed, longitudinal, lateral, vertical.  Speed is bound to
    [on_speed_change]; each acceleration axis has a subscription of its
    own, and the three are bound to the one callback [on_accel_change]. *)
Theorem on_start_subscriptions (w : World) :
  subscribe_returns w ->
  run SampleApp.on_start w
    = (Returns tt,
       [Subscribe Speed cb_on_speed_change;
        Subscribe Longitudinal cb_on_accel_change;
        Subscribe Lateral cb_on_accel_change;
        Subscribe Vertical cb_on_accel_change]).
Proof.
  intros Hsub.
  unfold run, SampleApp.on_start, await, subscribe, perform, bind.
  rewrite !Hsub. reflexivity.
Qed.

Lemma on_start_subscriptions_witness :
  run SampleApp.on_start calm_world
    = (Returns tt,
       [Subscribe Speed cb_on_speed_change;
        Subscribe Longitudinal cb_on_accel_change;
        Subscribe Lateral cb_on_accel_change;
        Subscribe Vertical cb_on_accel_change]).
Proof.
  apply (on_start_subscriptions calm_world).
  intros s cb. reflexivity.
Defined.

(** * Further properties of the handlers *)

(** ** Shared lemmas *)

Lemma plain_app (a b : string) : plain (a ++ b) = plain a && plain b.
Proof.
  induction a as [|c a IH]; simpl; [reflexivity|].
  now rewrite IH, andb_assoc.
Qed.

Lemma escape_char_plain (c : ascii) : plain_char c = true -> Json.escape_char c = String c "".
Proof.
  unfold plain_char, Json.escape_char. cbv zeta.
  intros H.
  apply andb_prop in H as [H H92]. apply andb_prop in H as [H H34].
  apply andb_prop in H as [Hlo Hhi].
  apply negb_true_iff in H34, H92. rewrite H34, H92.
  apply N.leb_le in Hlo.
  repeat match goal with
         | |- context [(N_of_ascii c =? ?k)%N] =>
             destruct (N.eqb_spec (N_of_ascii c) k); [lia|]
         end.
  apply N.leb_le in Hlo. now rewrite Hlo, Hhi.
Qed.

Lemma escape_plain (s : string) : plain s = true -> Json.escape s = s.
Proof.
  induction s as [|c s IH]; simpl; [reflexivity|].
  intros H. apply andb_prop in H as [Hc Hs].
  now rewrite (escape_char_plain c Hc), (IH Hs).
Qed.

Lemma plain_digits (d : Decimal.uint) : plain (NilEmpty.string_of_uint d) = true.
Proof. induction d; simpl; auto. Qed.

Lemma plain_digits_of (m : N) : plain (Py.digits_of m) = true.
Proof.
  unfold Py.digits_of, NilZero.string_of_uint.
  destruct (N.to_uint m) eqn:E; try reflexivity;
    rewrite <- E; pose proof (plain_digits (N.to_uint m)) as H;
    rewrite E in H |- *; exact H.
Qed.

Lemma plain_zeros (n : nat) : plain (Py.zeros n) = true.
Proof. induction n; simpl; auto. Qed.

Lemma plain_take (n : nat) (s : string) : plain s = true -> plain (Py.take n s) = true.
Proof.
  revert s; induction n as [|n IH]; intros [|c s]; simpl; auto.
  intros H. apply andb_prop in H as [Hc Hs]. now rewrite Hc, (IH s Hs).
Qed.

Lemma plain_drop (n : nat) (s : string) : plain s = true -> plain (Py.drop n s) = true.
Proof.
  revert s; induction n as [|n IH]; intros [|c s]; simpl; auto.
  intros H. apply andb_prop in H as [_ Hs]. now apply IH.
Qed.

Lemma plain_exponent_text (e : Z) : plain (Py.exponent_text e) = true.
Proof.
  unfold Py.exponent_text. cbv zeta.
  rewrite !plain_app, plain_digits_of.
  destruct (e <? 0)%Z; destruct (Nat.ltb _ 2); reflexivity.
Qed.

Lemma plain_finite_text (m : N) (p : Z) : plain (Py.finite_text m p) = true.
Proof.
  unfold Py.finite_text. cbv zeta.
  pose proof (plain_digits_of m) as Hd.
  destruct ((p <=? -4)%Z || (16 <? p)%Z).
  - rewrite !plain_app, plain_exponent_text, (plain_take 1 _ Hd).
    destruct (Nat.ltb 1 _); [|reflexivity].
    rewrite plain_app, (plain_drop 1 _ Hd). reflexivity.
  - destruct (p <=? 0)%Z.
    + rewrite !plain_app, plain_zeros, Hd. reflexivity.
    + destruct (p <? _)%Z.
      * rewrite !plain_app, (plain_take _ _ Hd), (plain_drop _ _ Hd). reflexivity.
      * rewrite !plain_app, plain_zeros, Hd. reflexivity.
Qed.

(** [str] of a float never holds a character that JSON escapes. *)
Lemma plain_str_float (x : Py.float) : plain (Py.str_float x) = true.
Proof.
  destruct x as [s m p|s|]; simpl.
  - rewrite plain_app, plain_finite_text. now destruct s.
  - now destruct s.
  - reflexivity.
Qed.

Lemma plain_message (r : request) (x : Py.float) :
  plain (message_prefix r ++ Py.str_float x) = true.
Proof. rewrite plain_app, plain_str_float. now destruct r. Qed.

(** The calls of [on_accel_change] form a prefix of the full list of six,
    with every value read through [reply_entry]. *)
Lemma on_accel_change_prefix (w : World) (data : DataPointReply) :
  exists n,
    trace_of (run (SampleApp.on_accel_change data) w)
    = firstn n
        [longi_line (value (reply_entry data Longitudinal));
         lat_line (value (reply_entry data Lateral));
         ver_line (value (reply_entry data Vertical));
         Publish DATABROKER_LONGI_ACCEL_SUBSCRIPTION_TOPIC
           (longi_payload (value (reply_entry data Longitudinal)));
         Publish DATABROKER_LAT_ACCEL_SUBSCRIPTION_TOPIC
           (lat_payload (value (reply_entry data Lateral)));
         Publish DATABROKER_VER_ACCEL_SUBSCRIPTION_TOPIC
           (ver_payload (value (reply_entry data Vertical)))].
Proof.
  rewrite on_accel_change_with_defaults.
  rewrite (on_accel_change_run w (with_defaults data) _ _ _ eq_refl eq_refl eq_refl).
  cbv zeta.
  destruct (transport_publish w DATABROKER_LONGI_ACCEL_SUBSCRIPTION_TOPIC _);
    [|exists 4%nat; reflexivity].
  destruct (transport_publish w DATABROKER_LAT_ACCEL_SUBSCRIPTION_TOPIC _);
    [|exists 5%nat; reflexivity].
  exists 6%nat; reflexivity.
Qed.

Lemma string_app_assoc (a b c : string) : (a ++ b) ++ c = a ++ (b ++ c).
Proof. induction a; simpl; congruence. Qed.

(** The text of a response object, with the message escaped. *)
Lemma dumps_response_text (status : Z) (m : string) :
  Json.dumps (response status m)
  = dq "{'result': {'status': " ++ Json.dumps_int status
      ++ dq ", 'message': '" ++ Json.escape m ++ dq "'}}".
Proof.
  unfold response. cbn [Json.dumps]. unfold Json.dumps_str.
  generalize (Json.escape m) (Json.dumps_int status). intros e i.
  cbn. rewrite !string_app_assoc. cbn. rewrite ?string_app_assoc. reflexivity.
Qed.

(** ** Request handlers *)

(** X1.  A request handler first logs one diagnostic line, on the module
    logger at level DEBUG, that names the topic and ends with the payload
    copied as it came (a [%s] or a quote in it is not interpreted), and only
    then queries the broker; the line is there whether or not the fetch or
    the publish succeeds. *)
Theorem request_logged_before_fetch (r : request) (w : World) (data : string) :
  exists h rest,
    SampleApp.bound_handler (request_topic r) = Some h /\
    trace_of (run (h data) w)
      = Log "__main__" Logging.DEBUG
          ("Received " ++ request_noun r ++ " request on topic "
             ++ request_topic r ++ " with data: " ++ data)
        :: Get (bound_signal r) :: rest /\
    log_lines (trace_of (run (h data) w))
      = [("__main__",
          "Received " ++ request_noun r ++ " request on topic "
            ++ request_topic r ++ " with data: " ++ data)].
Proof.
  exists (handler_of r).
  rewrite handler_of_run.
  destruct (broker_get w (bound_signal r)) as [res|e].
  - exists [response_publish r res].
    split; [apply bound_handler_of | split; reflexivity].
  - exists []. split; [apply bound_handler_of | split; reflexivity].
Qed.

(** A payload holding a format directive and quotes reaches the log as it
    came. *)
Example odd_payload_logged_verbatim :
  log_lines (trace_of (run (handler_of GetSpeed odd_payload) calm_world))
  = [("__main__",
      "Received speed request on topic sampleapp/getSpeed with data: 100%s "
        ++ Json.quote ++ "now" ++ Json.quote)].
Proof. reflexivity. Qed.

(** X2.  After a successful fetch the handler's own outcome follows the
    publish: it returns [None] when the transport returns, whatever the
    return code (a failure code such as -1 is not inspected), and it raises
    the transport's exception when the publish raises.  Either way the
    publish was issued once. *)
Theorem request_outcome_follows_publish (r : request) (w : World) (data : string)
        (res : TypedDataPointResult) :
  broker_get w (bound_signal r) = Returns res ->
  let out := run (handler_of r data) w in
  let payload :=
    Json.dumps (response 0 (message_prefix r ++ Py.str_float (value res))) in
  (forall rc, transport_publish w (response_topic r) payload = Returns rc ->
              result_of out = Returns tt) /\
  (forall e, transport_publish w (response_topic r) payload = Raises e ->
             result_of out = Raises e) /\
  publishes (trace_of out) = [(response_topic r, payload)].
Proof.
  intros Hget. cbv zeta. rewrite handler_of_run, Hget.
  unfold result_of, trace_of. cbn [fst snd].
  repeat split.
  - intros rc ->. reflexivity.
  - intros e ->. reflexivity.
Qed.

Lemma request_outcome_follows_publish_witness :
  result_of (run (handler_of GetSpeed "q") refusing_transport) = Returns tt /\
  publishes (trace_of (run (handler_of GetSpeed "q") refusing_transport))
    = [("sampleapp/getSpeed/response",
        dq "{'result': {'status': 0, 'message': 'Speed = 42.5'}}")].
Proof.
  destruct (request_outcome_follows_publish GetSpeed refusing_transport "q"
              (sample_result f_42_5) eq_refl) as (Hret & _ & Hpub).
  split; [exact (Hret (-1)%Z eq_refl) | exact Hpub].
Defined.

(** X3.  In every world a request handler queries the broker exactly once,
    for the signal bound to its topic, and registers no subscription: a
    failed fetch is not retried and no other signal is read. *)
Theorem request_fetches_once (r : request) (w : World) (data : string) :
  fetches (trace_of (run (handler_of r data) w)) = [bound_signal r] /\
  subscriptions (trace_of (run (handler_of r data) w)) = [].
Proof.
  rewrite handler_of_run.
  destruct (broker_get w (bound_signal r)); split; reflexivity.
Qed.

(** X4.  For every fetched value the published response text is, character
    for character, [{"result": {"status": 0, "message": "<prefix><str(v)>"}}]:
    the text of a float holds nothing that JSON escapes, so the message
    appears in the payload unaltered. *)
Theorem response_payload_text (r : request) (w : World) (data : string)
        (res : TypedDataPointResult) :
  broker_get w (bound_signal r) = Returns res ->
  publishes (trace_of (run (handler_of r data) w))
    = [(response_topic r,
        dq "{'result': {'status': 0, 'message': '"
          ++ message_prefix r ++ Py.str_float (value res) ++ dq "'}}")].
Proof.
  intros Hget. rewrite handler_of_run, Hget.
  unfold trace_of, response_publish. cbn [snd publishes flat_map app].
  rewrite dumps_response_text, (escape_plain _ (plain_message r (value res))).
  rewrite string_app_assoc. reflexivity.
Qed.

Lemma response_payload_text_witness :
  publishes (trace_of (run (handler_of GetVerticalAccel "x") calm_world))
    = [("sampleapp/getVerticalAccel/response",
        dq "{'result': {'status': 0, 'message': 'Vertical Acceleration = 42.5'}}")].
Proof.
  apply (response_payload_text GetVerticalAccel calm_world "x" (sample_result f_42_5)).
  reflexivity.
Defined.

(** ** Change notifications *)

(** X5.  The callbacks of the subscriptions work from the notification
    alone: in every world and on every notification they issue no query to
    the broker and register no subscription. *)
Theorem change_handlers_never_query (cb : callback) (data : DataPointReply) (w : World) :
  fetches (trace_of (run (SampleApp.callback_method cb data) w)) = [] /\
  subscriptions (trace_of (run (SampleApp.callback_method cb data) w)) = [].
Proof.
  destruct cb; cbn [SampleApp.callback_method].
  - rewrite on_speed_change_run. split; reflexivity.
  - destruct (on_accel_change_prefix w data) as [n ->].
    do 7 (destruct n as [|n]; [split; reflexivity|]).
    split; reflexivity.
Qed.



(** X7.  A callback reads only its own entries of the notification:
    [on_speed_change] behaves alike on two notifications with the same
    speed entry, whatever else they carry, and [on_accel_change] behaves
    alike on two notifications with the same three acceleration entries,
    with or without a speed entry. *)
Theorem callbacks_read_own_entries (w : World) (d1 d2 : DataPointReply) :
  (d1 Speed = d2 Speed ->
   run (SampleApp.on_speed_change d1) w = run (SampleApp.on_speed_change d2) w) /\
  (d1 Longitudinal = d2 Longitudinal ->
   d1 Lateral = d2 Lateral ->
   d1 Vertical = d2 Vertical ->
   run (SampleApp.on_accel_change d1) w = run (SampleApp.on_accel_change d2) w).
Proof.
  split.
  - intros H. rewrite !on_speed_change_run. unfold reply_entry. now rewrite H.
  - intros H1 H2 H3.
    unfold run, SampleApp.on_accel_change, DataPointReply_get.
    now rewrite H1, H2, H3.
Qed.

Lemma callbacks_read_own_entries_witness :
  run (SampleApp.on_speed_change speed_notification) calm_world
    = run (SampleApp.on_speed_change full_notification) calm_world /\
  run (SampleApp.on_accel_change accel_notification) calm_world
    = run (SampleApp.on_accel_change full_notification) calm_world.
Proof.
  destruct (callbacks_read_own_entries calm_world speed_notification full_notification)
    as [Hs _].
  destruct (callbacks_read_own_entries calm_world accel_notification full_notification)
    as [_ Ha].
  split; [apply Hs | apply Ha]; reflexivity.
Defined.

(** X8.  [on_speed_change] writes its log line before it publishes and has
    no handler around the publish: when the transport raises, the callback
    raises the same exception, the line has been logged all the same and
    the publish is not repeated; when the transport returns, whatever the
    code, the callback returns. *)
Theorem speed_change_outcome_follows_publish (w : World) (data : DataPointReply)
        (V : Py.float) :
  carries data Speed V ->
  let out := run (SampleApp.on_speed_change data) w in
  let payload := Json.dumps (Json.Dict [("speed", Json.Float V)]) in
  trace_of out
    = [Log "vehicle/speed" Logging.INFO ("Vehicle speed: " ++ Py.str_float V);
       Publish "sampleapp/currentSpeed" payload] /\
  (forall e, transport_publish w "sampleapp/currentSpeed" payload = Raises e ->
             result_of out = Raises e) /\
  (forall rc, transport_publish w "sampleapp/currentSpeed" payload = Returns rc ->
              result_of out = Returns tt).
Proof.
  intros (r & Hr & <-). cbv zeta.
  rewrite on_speed_change_run, (reply_entry_some _ _ _ Hr).
  unfold result_of, trace_of. cbn [fst snd].
  repeat split.
  - intros e He.
    change (transport_publish w DATABROKER_SPEED_SUBSCRIPTION_TOPIC
              (Json.dumps (Json.Dict [("speed", Json.Float (value r))])) = Raises e) in He.
    now rewrite He.
  - intros rc Hrc.
    change (transport_publish w DATABROKER_SPEED_SUBSCRIPTION_TOPIC
              (Json.dumps (Json.Dict [("speed", Json.Float (value r))])) = Returns rc) in Hrc.
    now rewrite Hrc.
Qed.

Lemma speed_change_outcome_follows_publish_witness :
  trace_of (run (SampleApp.on_speed_change speed_notification) refusing_transport)
    = [Log "vehicle/speed" Logging.INFO "Vehicle speed: 42.5";
       Publish "sampleapp/currentSpeed" (dq "{'speed': 42.5}")] /\
  result_of (run (SampleApp.on_speed_change speed_notification) refusing_transport)
    = Returns tt.
Proof.
  assert (Hc : carries speed_notification Speed f_42_5)
    by (exists (sample_result f_42_5); split; reflexivity).
  destruct (speed_change_outcome_follows_publish refusing_transport
              speed_notification f_42_5 Hc) as (Htr & _ & Hret).
  split; [exact Htr | exact (Hret (-1)%Z eq_refl)].
Defined.

(** ** Startup and dispatch *)

(** X9.  [on_start] registers its subscriptions in the order speed,
    longitudinal, lateral, vertical and stops at the first one the broker
    refuses: the subscriptions before it were accepted, the ones after it
    are never requested, and [on_start] ends with the outcome of the last
    one it requested. *)
Theorem on_start_stops_at_first_refusal (w : World) :
  let out := run SampleApp.on_start w in
  exists n,
    (1 <= n <= 4)%nat /\
    trace_of out
      = map (fun sc => Subscribe (fst sc) (snd sc)) (firstn n startup_subscriptions) /\
    (forall s cb, In (s, cb) (firstn (n - 1) startup_subscriptions) ->
                  broker_subscribe w s cb = Returns tt) /\
    (exists s cb, nth_error startup_subscriptions (n - 1) = Some (s, cb) /\
                  result_of out = broker_subscribe w s cb) /\
    (n < 4 -> exists e, result_of out = Raises e)%nat.
Proof.
  cbv zeta.
  unfold run, SampleApp.on_start, await, subscribe, perform, bind,
    result_of, trace_of.
  destruct (broker_subscribe w Speed cb_on_speed_change) as [[]|e1] eqn:E1.
  2:{ exists 1%nat. cbn.
      split; [lia|]. split; [reflexivity|]. split; [intros s cb []|].
      split; [|intros _; now exists e1].
      exists Speed, cb_on_speed_change. now rewrite E1. }
  destruct (broker_subscribe w Longitudinal cb_on_accel_change) as [[]|e2] eqn:E2.
  2:{ exists 2%nat. cbn.
      split; [lia|]. split; [reflexivity|].
      split; [intros s cb [[= <- <-]|[]]; exact E1|].
      split; [|intros _; now exists e2].
      exists Longitudinal, cb_on_accel_change. now rewrite E2. }
  destruct (broker_subscribe w Lateral cb_on_accel_change) as [[]|e3] eqn:E3.
  2:{ exists 3%nat. cbn.
      split; [lia|]. split; [reflexivity|].
      split; [intros s cb [[= <- <-]|[[= <- <-]|[]]]; assumption|].
      split; [|intros _; now exists e3].
      exists Lateral, cb_on_accel_change. now rewrite E3. }
  exists 4%nat. cbn.
  split; [lia|]. split; [reflexivity|].
  split; [intros s cb [[= <- <-]|[[= <- <-]|[[= <- <-]|[]]]]; assumption|].
  split; [|lia].
  exists Vertical, cb_on_accel_change. split; reflexivity.
Qed.

(** The broker accepts the speed subscription and refuses the next one:
    the lateral and vertical subscriptions are never requested. *)
Example on_start_refused_at_longitudinal :
  run SampleApp.on_start accel_subscription_refused
  = (Raises (CollaboratorError "subscription refused"),
     [Subscribe Speed cb_on_speed_change;
      Subscribe Longitudinal cb_on_accel_change]).
Proof. reflexivity. Qed.

(** X10.  Only the four request topics have a handler: a topic with a bound
    handler is the request topic of one of the four signals and the handler
    is that signal's.  In particular a message on a response topic or on a
    relay topic reaches no handler. *)
Theorem only_request_topics_bound (topic : string) (h : string -> M unit) :
  SampleApp.bound_handler topic = Some h ->
  exists r, topic = request_topic r /\ h = handler_of r.
Proof.
  unfold SampleApp.bound_handler, SampleApp.subscribe_topic, SampleApp.handler_in.
  destruct (String.eqb_spec GET_SPEED_REQUEST_TOPIC topic) as [<-|_];
    [intros [= <-]; now exists GetSpeed|].
  destruct (String.eqb_spec GET_LONGI_ACCEL_REQUEST_TOPIC topic) as [<-|_];
    [intros [= <-]; now exists GetLongitudinalAccel|].
  destruct (String.eqb_spec GET_LAT_ACCEL_REQUEST_TOPIC topic) as [<-|_];
    [intros [= <-]; now exists GetLateralAccel|].
  destruct (String.eqb_spec GET_VER_ACCEL_REQUEST_TOPIC topic) as [<-|_];
    [intros [= <-]; now exists GetVerticalAccel|].
  discriminate.
Qed.

Lemma only_request_topics_bound_witness :
  exists r,
    "sampleapp/getLateralAccel" = request_topic r /\
    SampleApp.on_get_lat_accel_request_received = handler_of r.
Proof.
  apply (only_request_topics_bound "sampleapp/getLateralAccel"
           SampleApp.on_get_lat_accel_request_received).
  reflexivity.
Defined.

(** X11.  The application never publishes on a topic it handles: whatever
    event is handled, in whatever world, no handler is bound to the topic of
    any publish it issues, so its own messages cannot set it off again. *)
Theorem never_publishes_on_handled_topic (ev : event) (w : World) (t p : string) :
  In (t, p) (publishes (trace_of (run (handle ev) w))) ->
  SampleApp.bound_handler t = None.
Proof.
  destruct ev as [[|] data|r payload]; cbn [handle SampleApp.callback_method].
  - rewrite on_speed_change_run. cbn.
    intros [[= <- <-]|[]]. reflexivity.
  - destruct (on_accel_change_prefix w data) as [n ->].
    do 7 (destruct n as [|n];
          [cbn; intros Hin;
           repeat match type of Hin with
                  | _ \/ _ => destruct Hin as [[= <- <-]|Hin]; [reflexivity|]
                  | False => destruct Hin
                  end|]).
    cbn; intros Hin.
    repeat match type of Hin with
           | _ \/ _ => destruct Hin as [[= <- <-]|Hin]; [reflexivity|]
           | False => destruct Hin
           end.
  - rewrite handler_of_run.
    destruct (broker_get w (bound_signal r)); cbn; [|intros []].
    intros [[= <- <-]|[]]. now destruct r.
Qed.

Lemma never_publishes_on_handled_topic_witness :
  SampleApp.bound_handler "sampleapp/currentLateralAccel" = None.
Proof.
  apply (never_publishes_on_handled_topic
           (Notification cb_on_accel_change accel_notification) calm_world
           "sampleapp/currentLateralAccel" (lat_payload f_minus_0_5)).
  vm_compute. right. left. reflexivity.
Defined.
